(** * Password-strength core: [validator.py] and [checker.py]

    A shallow embedding of [PasswordValidator] and
    [PasswordStrengthChecker] together with the parts of the Python
    runtime they rely on: [str] as a sequence of code points, the
    regular expressions compiled in the two constructors, binary64
    [float] arithmetic and the builtin [round]. *)

From Stdlib Require Import Floats.PrimFloat.
From Stdlib Require Floats.FloatOps Floats.SpecFloat Uint63.
From Stdlib Require Import ZArith List String Ascii Bool Lia DecimalString.
From stdpp Require Import base gmap strings list.

Set Warnings "-inexact-float".
Local Open Scope Z_scope.

(** ** The Python runtime *)

Module Py.

(** A Python [str] is a sequence of Unicode code points. *)
Definition char := Z.
Definition str := list char.

(** An ASCII literal of the source as a [str]. *)
Definition of_string (s : string) : str :=
  map (fun a => Z.of_N (N_of_ascii a)) (list_ascii_of_string s).

(** [len(s)] *)
Definition len (s : str) : Z := Z.of_nat (length s).

(** [str(n)] for an [int], as interpolated by an f-string. *)
Definition str_of_int (n : Z) : string := NilZero.string_of_int (Z.to_int n).

(** [float(n)] for a small non-negative [int]: the implicit conversion
    in [int / float]. *)
Definition float_of_int (n : Z) : PrimFloat.float :=
  PrimFloat.of_uint63 (Uint63.of_Z n).

(** [min(a, b)] and [max(a, b)] keep the first argument unless the
    second one is strictly smaller (resp. larger). *)
Definition min (a b : PrimFloat.float) : PrimFloat.float :=
  if (b <? a)%float then b else a.
Definition max (a b : PrimFloat.float) : PrimFloat.float :=
  if (a <? b)%float then b else a.

(** Nearest integer to [num / den], ties to even ([0 <= num], [0 < den]). *)
Definition round_half_even (num den : Z) : Z :=
  let q := num / den in
  let r := num mod den in
  if 2 * r <? den then q
  else if den <? 2 * r then q + 1
  else if Z.even q then q else q + 1.

(** [round(x, ndigits)] on a [float], for [0 <= ndigits]: CPython
    rounds the exact binary value of [x] to [ndigits] decimals
    (correctly, ties to even) and converts that decimal back to the
    nearest [float].  Zeros, infinities and NaN round to themselves. *)
Definition round (x : PrimFloat.float) (ndigits : Z) : PrimFloat.float :=
  match FloatOps.Prim2SF x with
  | SpecFloat.S754_finite s m e =>
      let scale := 10 ^ ndigits in
      let n := if 0 <=? e then Z.pos m * 2 ^ e * scale
               else round_half_even (Z.pos m * scale) (2 ^ (- e)) in
      match n with
      | Z.pos k =>
          FloatOps.SF2Prim
            (SpecFloat.SFdiv FloatOps.prec FloatOps.emax
               (SpecFloat.S754_finite s k 0)
               (SpecFloat.S754_finite false (Z.to_pos scale) 0))
      | _ => if s then (- 0)%float else 0%float
      end
  | _ => x
  end.

End Py.

(** ** Regular expressions of the two constructors *)

Module Re.
Import Py.

Definition in_range (lo hi c : char) : bool := (lo <=? c) && (c <=? hi).

(** [[A-Z]] *)
Definition upper_class (c : char) : bool := in_range 65 90 c.

(** [[a-z]] *)
Definition lower_class (c : char) : bool := in_range 97 122 c.

(** First code points of the runs of ten decimal digits (general
    category Nd) of the Unicode character database. *)
Definition decimal_runs : list char :=
  [ 0x30; 0x660; 0x6F0; 0x7C0; 0x966; 0x9E6; 0xA66; 0xAE6; 0xB66; 0xBE6;
    0xC66; 0xCE6; 0xD66; 0xDE6; 0xE50; 0xED0; 0xF20; 0x1040; 0x1090;
    0x17E0; 0x1810; 0x1946; 0x19D0; 0x1A80; 0x1A90; 0x1B50; 0x1BB0;
    0x1C40; 0x1C50; 0xA620; 0xA8D0; 0xA900; 0xA9D0; 0xA9F0; 0xAA50;
    0xABF0; 0xFF10; 0x104A0; 0x10D30; 0x11066; 0x110F0; 0x11136; 0x111D0;
    0x112F0; 0x11450; 0x114D0; 0x11650; 0x116C0; 0x11730; 0x118E0;
    0x11950; 0x11C50; 0x11D50; 0x11DA0; 0x16A60; 0x16AC0; 0x16B50;
    0x1E140; 0x1E2F0; 0x1E950; 0x1FBF0 ].

(** [\d] in a [str] pattern: any Unicode decimal digit, that is the
    runs above and the mathematical digits U+1D7CE..U+1D7FF. *)
Definition digit_class (c : char) : bool :=
  existsb (fun lo => in_range lo (lo + 9) c) decimal_runs
  || in_range 0x1D7CE 0x1D7FF c.

(** The members of the bracket expression of [special_char_pattern],
    in its order; the double quote (34) and the backslash (92) are
    given by code. *)
Definition special_chars : str :=
  of_string "!@#$%^&*()_+-=[]{};:" ++ [34; 92] ++ of_string "|,.<>/?".

Definition special_class (c : char) : bool := existsb (Z.eqb c) special_chars.

(** [.] without DOTALL: anything but the line feed. *)
Definition dot (c : char) : bool := negb (c =? 10).

(** [pattern.search(s)] for a pattern that is one character class. *)
Definition search_class (cls : char -> bool) (s : str) : bool := existsb cls s.

(** [pattern.search(s)]: the pattern matches at some position of [s];
    [m] decides whether it matches a prefix of its argument. *)
Fixpoint search (m : str -> bool) (s : str) : bool :=
  m s || match s with
         | [] => false
         | _ :: t => search m t
         end.

(** [(.)\1{2,}] at the start of [s]: a character [.] accepts, followed
    by two or more copies of itself. *)
Definition match_repeating (s : str) : bool :=
  match s with
  | c :: c1 :: c2 :: _ => dot c && (c1 =? c) && (c2 =? c)
  | _ => false
  end.

(** Non-ASCII characters that IGNORECASE identifies with an ASCII
    letter in a [str] pattern: U+0130 and U+0131 with [i], U+212A with
    [k], U+017F with [s]. *)
Definition caseless_extra (lo : char) : list char :=
  if lo =? 105 then [0x130; 0x131]
  else if lo =? 107 then [0x212A]
  else if lo =? 115 then [0x17F]
  else [].

(** A literal [lo] of the pattern (a lower-case ASCII letter or a
    digit) against the character [c] under IGNORECASE. *)
Definition match_literal_ignorecase (lo c : char) : bool :=
  (c =? lo)
  || (lower_class lo && ((c =? lo - 32) || existsb (Z.eqb c) (caseless_extra lo))).

(** A literal word at the start of [s] under IGNORECASE. *)
Fixpoint match_word_ignorecase (w s : str) : bool :=
  match w, s with
  | [], _ => true
  | a :: w', c :: s' => match_literal_ignorecase a c && match_word_ignorecase w' s'
  | _ :: _, [] => false
  end.

(** The alternatives of [sequential_chars_pattern]. *)
Definition sequential_words : list string :=
  [ "abc"; "bcd"; "cde"; "def"; "efg"; "fgh"; "ghi"; "hij"; "ijk"; "jkl";
    "klm"; "lmn"; "mno"; "nop"; "opq"; "pqr"; "qrs"; "rst"; "stu"; "tuv";
    "uvw"; "vwx"; "wxy"; "xyz"; "012"; "123"; "234"; "345"; "456"; "567";
    "678"; "789" ]%string.

(** [(?:abc|bcd|...|789)] with IGNORECASE at the start of [s]. *)
Definition match_sequential (s : str) : bool :=
  existsb (fun w => match_word_ignorecase (of_string w) s) sequential_words.

End Re.

(** ** [validator.py] *)

Module Validator.
Import Py.

(** The compiled patterns are the same for every instance; the only
    field that varies is [min_length]. *)
Record PasswordValidator := { min_length : Z }.

(** [PasswordValidator(min_length)]; the default argument is 8. *)
Definition __init__ (min_length : Z) : PasswordValidator :=
  {| min_length := min_length |}.

Definition uppercase_pattern := Re.search_class Re.upper_class.
Definition lowercase_pattern := Re.search_class Re.lower_class.
Definition digit_pattern := Re.search_class Re.digit_class.
Definition special_char_pattern := Re.search_class Re.special_class.

Definition validate_length (self : PasswordValidator) (password : str) : bool :=
  min_length self <=? len password.

Definition validate_uppercase (self : PasswordValidator) (password : str) : bool :=
  uppercase_pattern password.

Definition validate_lowercase (self : PasswordValidator) (password : str) : bool :=
  lowercase_pattern password.

Definition validate_digit (self : PasswordValidator) (password : str) : bool :=
  digit_pattern password.

Definition validate_special_char (self : PasswordValidator) (password : str) : bool :=
  special_char_pattern password.

Definition length_error (self : PasswordValidator) : string :=
  ("Password must be at least " ++ str_of_int (min_length self)
     ++ " characters long")%string.
Definition uppercase_error : string :=
  "Password must contain at least one uppercase letter".
Definition lowercase_error : string :=
  "Password must contain at least one lowercase letter".
Definition digit_error : string :=
  "Password must contain at least one digit".
Definition special_char_error : string :=
  "Password must contain at least one special character".

(** [errors.append(msg)] when the check fails. *)
Definition append_unless (ok : bool) (msg : string) (errors : list string)
  : list string :=
  if negb ok then errors ++ [msg] else errors.

Definition get_validation_errors (self : PasswordValidator) (password : str)
  : list string :=
  let errors := [] in
  let errors := append_unless (validate_length self password) (length_error self) errors in
  let errors := append_unless (validate_uppercase self password) uppercase_error errors in
  let errors := append_unless (validate_lowercase self password) lowercase_error errors in
  let errors := append_unless (validate_digit self password) digit_error errors in
  let errors := append_unless (validate_special_char self password) special_char_error errors in
  errors.

Definition is_valid (self : PasswordValidator) (password : str) : bool :=
  Z.of_nat (length (get_validation_errors self password)) =? 0.

Definition get_validation_summary (self : PasswordValidator) (password : str)
  : gmap string bool :=
  <["special_char" := validate_special_char self password]>
  (<["digit" := validate_digit self password]>
  (<["lowercase" := validate_lowercase self password]>
  (<["uppercase" := validate_uppercase self password]>
  (<["length" := validate_length self password]> ∅)))).

End Validator.

(** ** [checker.py] *)

Module Checker.
Import Py.
Export Validator.

Record PasswordStrengthChecker := {
  validator : PasswordValidator;
  length_weight : float;
  variety_weight : float;
  complexity_weight : float
}.

(** [PasswordStrengthChecker()] *)
Definition __init__ : PasswordStrengthChecker :=
  {| validator := Validator.__init__ 8;
     length_weight := 0.3;
     variety_weight := 0.4;
     complexity_weight := 0.3 |}.

Definition repeating_chars_pattern := Re.search Re.match_repeating.
Definition sequential_chars_pattern := Re.search Re.match_sequential.

Definition calculate_length_score (self : PasswordStrengthChecker)
  (password : str) : float :=
  let length := len password in
  if length <? 8 then 0.0
  else if length <=? 10 then 0.3
  else if length <=? 12 then 0.6
  else if length <=? 16 then 0.8
  else 1.0.

(** [variety_count += 1] when the check holds. *)
Definition incr_if (b : bool) (count : Z) : Z :=
  if b then count + 1 else count.

Definition calculate_variety_score (self : PasswordStrengthChecker)
  (password : str) : float :=
  let variety_count := 0 in
  let variety_count :=
    incr_if (validate_uppercase (validator self) password) variety_count in
  let variety_count :=
    incr_if (validate_lowercase (validator self) password) variety_count in
  let variety_count :=
    incr_if (validate_digit (validator self) password) variety_count in
  let variety_count :=
    incr_if (validate_special_char (validator self) password) variety_count in
  (float_of_int variety_count / 4.0)%float.

Definition calculate_complexity_score (self : PasswordStrengthChecker)
  (password : str) : float :=
  let score := 1.0%float in
  let score :=
    if repeating_chars_pattern password then (score - 0.3)%float else score in
  let score :=
    if sequential_chars_pattern password then (score - 0.2)%float else score in
  let score :=
    if validate_uppercase (validator self) password
       && validate_lowercase (validator self) password
    then (score + 0.1)%float else score in
  let score :=
    if validate_digit (validator self) password
       && validate_special_char (validator self) password
    then (score + 0.1)%float else score in
  Py.max 0.0 (Py.min 1.0 score).

Definition calculate_overall_score (self : PasswordStrengthChecker)
  (password : str) : float :=
  let length_score := calculate_length_score self password in
  let variety_score := calculate_variety_score self password in
  let complexity_score := calculate_complexity_score self password in
  let overall_score :=
    (length_score * length_weight self
     + variety_score * variety_weight self
     + complexity_score * complexity_weight self)%float in
  Py.round overall_score 2.

Definition get_strength_category (self : PasswordStrengthChecker)
  (score : float) : string :=
  if (score <? 0.4)%float then "Weak"
  else if (score <? 0.7)%float then "Medium"
  else "Strong".

(** The dictionary returned by [get_strength_details], one field per key. *)
Record StrengthDetails := {
  length_score : float;
  variety_score : float;
  complexity_score : float;
  overall_score : float;
  category : string;
  details_is_valid : bool;
  validation_errors : list string
}.

Definition get_strength_details (self : PasswordStrengthChecker)
  (password : str) : StrengthDetails :=
  let length_score := calculate_length_score self password in
  let variety_score := calculate_variety_score self password in
  let complexity_score := calculate_complexity_score self password in
  let overall_score := calculate_overall_score self password in
  let category := get_strength_category self overall_score in
  {| length_score := length_score;
     variety_score := variety_score;
     complexity_score := complexity_score;
     overall_score := overall_score;
     category := category;
     details_is_valid := is_valid (validator self) password;
     validation_errors := get_validation_errors (validator self) password |}.

Definition longer_advice : string :=
  "Consider using a longer password (12+ characters)".
Definition uppercase_advice : string := "Add uppercase letters".
Definition lowercase_advice : string := "Add lowercase letters".
Definition digit_advice : string := "Add numbers".
Definition special_char_advice : string := "Add special characters".
Definition repeating_advice : string := "Avoid repeating characters".
Definition sequential_advice : string := "Avoid sequential characters".

(** [recommendations.append(msg)] when the condition holds. *)
Definition append_if (cond : bool) (msg : string) (recommendations : list string)
  : list string :=
  if cond then recommendations ++ [msg] else recommendations.

Definition get_strength_recommendations (self : PasswordStrengthChecker)
  (password : str) : list string :=
  let recommendations := [] in
  let recommendations :=
    append_if (len password <? 12) longer_advice recommendations in
  let recommendations :=
    append_if (negb (validate_uppercase (validator self) password))
      uppercase_advice recommendations in
  let recommendations :=
    append_if (negb (validate_lowercase (validator self) password))
      lowercase_advice recommendations in
  let recommendations :=
    append_if (negb (validate_digit (validator self) password))
      digit_advice recommendations in
  let recommendations :=
    append_if (negb (validate_special_char (validator self) password))
      special_char_advice recommendations in
  let recommendations :=
    append_if (repeating_chars_pattern password) repeating_advice recommendations in
  let recommendations :=
    append_if (sequential_chars_pattern password) sequential_advice recommendations in
  recommendations.

End Checker.

(** * Verification *)

Import Py Checker.

(** ** Definitions used by the statements *)

(** The checker every statement is about: the one the constructor builds. *)
Definition checker : PasswordStrengthChecker := Checker.__init__.

(** The five rules in the order [get_validation_errors] runs them, each
    with the diagnostic it appends. *)
Definition rule_messages (self : PasswordValidator) : list (string * string) :=
  [ ("length", length_error self);
    ("uppercase", uppercase_error);
    ("lowercase", lowercase_error);
    ("digit", digit_error);
    ("special_char", special_char_error) ]%string.

(** The diagnostic of a rule when the summary records it as failed. *)
Definition failed_message (summary : gmap string bool) (rule : string * string)
  : option string :=
  match summary !! rule.1 with
  | Some false => Some rule.2
  | _ => None
  end.

(** The seven checks of [get_strength_recommendations] in source order:
    the triggering condition and the advisory it appends. *)
Definition recommendation_checks (self : PasswordStrengthChecker) (p : str)
  : list (bool * string) :=
  [ (len p <? 12, longer_advice);
    (negb (validate_uppercase (validator self) p), uppercase_advice);
    (negb (validate_lowercase (validator self) p), lowercase_advice);
    (negb (validate_digit (validator self) p), digit_advice);
    (negb (validate_special_char (validator self) p), special_char_advice);
    (repeating_chars_pattern p, repeating_advice);
    (sequential_chars_pattern p, sequential_advice) ].

(** [c] is the letter or digit [lo] of a pattern up to case. *)
Definition caseless (lo c : char) : Prop :=
  c = lo \/ (97 <= lo <= 122 /\ (c = lo - 32 \/ In c (Re.caseless_extra lo))).

(** A character that is in none of the four classes: not in A-Z, not
    in a-z, not a decimal digit and not in the special set. *)
Definition outside_classes (c : char) : Prop :=
  Re.upper_class c = false /\ Re.lower_class c = false
  /\ Re.digit_class c = false /\ Re.special_class c = false.

(** The complexity formula as the specification words it: start at 1.0,
    apply the two penalties and the two bonuses, clamp to [[0, 1]]. *)
Definition clamp01 (x : float) : float :=
  if (x <? 0.0)%float then 0.0%float
  else if (1.0 <? x)%float then 1.0%float
  else x.

Definition complexity_formula (repeat sequence mixed_case digit_special : bool)
  : float :=
  let penalty_repeat := if repeat then 0.3%float else 0.0%float in
  let penalty_sequence := if sequence then 0.2%float else 0.0%float in
  let bonus_case := if mixed_case then 0.1%float else 0.0%float in
  let bonus_digit := if digit_special then 0.1%float else 0.0%float in
  clamp01 (1.0 - penalty_repeat - penalty_sequence + bonus_case + bonus_digit)%float.

(** The same scores in exact decimal arithmetic.  The length score and
    the complexity score are whole tenths, the variety score is a number
    of quarters, so the weighted sum 0.3 * length + 0.4 * variety
    + 0.3 * complexity is a whole number of hundredths. *)
Definition length_tenths (n : Z) : Z :=
  if n <? 8 then 0
  else if n <=? 10 then 3
  else if n <=? 12 then 6
  else if n <=? 16 then 8
  else 10.

Definition variety_quarters (self : PasswordValidator) (p : str) : Z :=
  Z.b2z (validate_uppercase self p) + Z.b2z (validate_lowercase self p)
  + Z.b2z (validate_digit self p) + Z.b2z (validate_special_char self p).

Definition complexity_tenths (self : PasswordValidator) (p : str) : Z :=
  let penalty_repeat := if repeating_chars_pattern p then 3 else 0 in
  let penalty_sequence := if sequential_chars_pattern p then 2 else 0 in
  let bonus_case :=
    Z.b2z (validate_uppercase self p && validate_lowercase self p) in
  let bonus_digit :=
    Z.b2z (validate_digit self p && validate_special_char self p) in
  Z.max 0 (Z.min 10 (10 - penalty_repeat - penalty_sequence + bonus_case + bonus_digit)).

Definition overall_hundredths (p : str) : Z :=
  3 * length_tenths (len p)
  + 10 * variety_quarters (validator checker) p
  + 3 * complexity_tenths (validator checker) p.

(** What the category of a score must be, by the three tiers. *)
Definition category_consistent (s : float) : bool :=
  implb (s <? 0.4)%float (String.eqb (get_strength_category checker s) "Weak")
  && implb ((0.4 <=? s)%float && (s <? 0.7)%float)
       (String.eqb (get_strength_category checker s) "Medium")
  && implb (0.7 <=? s)%float (String.eqb (get_strength_category checker s) "Strong").

Definition overall_ok (s : float) : bool :=
  (0.0 <=? s)%float && (s <=? 1.0)%float && category_consistent s.

(** Case analysis on every test a score depends on: the four character
    classes, the two patterns and the length thresholds. *)
Ltac case_features self p :=
  destruct (validate_uppercase (validator self) p),
    (validate_lowercase (validator self) p),
    (validate_digit (validator self) p),
    (validate_special_char (validator self) p),
    (repeating_chars_pattern p), (sequential_chars_pattern p).

Ltac case_length p :=
  destruct (len p <? 8), (len p <=? 10), (len p <=? 12), (len p <=? 16).

Ltac unfold_overall :=
  unfold calculate_overall_score, calculate_length_score, calculate_variety_score,
    calculate_complexity_score.

(** Membership of a character in the classes: how many of the four
    classes it is in, and whether it is an ASCII letter or a decimal
    digit. *)
Definition class_count (c : char) : Z :=
  Z.b2z (Re.upper_class c) + Z.b2z (Re.lower_class c)
  + Z.b2z (Re.digit_class c) + Z.b2z (Re.special_class c).

Definition alnum_class (c : char) : bool :=
  Re.upper_class c || Re.lower_class c || Re.digit_class c.

(** A literal of the sequential pattern that IGNORECASE identifies
    with ASCII characters only. *)
Definition plain_literal (lo : char) : bool :=
  (Re.lower_class lo || Re.in_range 48 57 lo)
  && match Re.caseless_extra lo with [] => true | _ => false end.

(** ** Length score *)

(** C6: [calculate_length_score] is the step function of the character
    count: below 8 it is 0.0, from 8 to 10 it is 0.3, from 11 to 12 it is
    0.6, from 13 to 16 it is 0.8 and above 16 it is 1.0. *)
Theorem C6_length_score_steps (self : PasswordStrengthChecker) (p : str) :
  (len p < 8 -> calculate_length_score self p = 0.0%float)
  /\ (8 <= len p <= 10 -> calculate_length_score self p = 0.3%float)
  /\ (11 <= len p <= 12 -> calculate_length_score self p = 0.6%float)
  /\ (13 <= len p <= 16 -> calculate_length_score self p = 0.8%float)
  /\ (16 < len p -> calculate_length_score self p = 1.0%float).
Proof.
  unfold calculate_length_score.
  repeat split; intros H;
    repeat match goal with
           | |- context [?a <? ?b] => destruct (Z.ltb_spec a b); try lia
           | |- context [?a <=? ?b] => destruct (Z.leb_spec a b); try lia
           end; reflexivity.
Qed.

Lemma C6_length_score_steps_witness :
  calculate_length_score checker (of_string "short") = 0.0%float
  /\ calculate_length_score checker (of_string "Password1") = 0.3%float
  /\ calculate_length_score checker (of_string "Password123") = 0.6%float
  /\ calculate_length_score checker (of_string "Tr0ub4dor&3XyZ") = 0.8%float
  /\ calculate_length_score checker (of_string "correcthorsebattery") = 1.0%float.
Proof.
  split; [| split; [| split; [| split]]].
  - apply (C6_length_score_steps checker (of_string "short")). vm_compute. reflexivity.
  - apply (C6_length_score_steps checker (of_string "Password1")). vm_compute.
    split; discriminate.
  - apply (C6_length_score_steps checker (of_string "Password123")). vm_compute.
    split; discriminate.
  - apply (C6_length_score_steps checker (of_string "Tr0ub4dor&3XyZ")). vm_compute.
    split; discriminate.
  - apply (C6_length_score_steps checker (of_string "correcthorsebattery")).
    vm_compute. reflexivity.
Defined.

(** ** Validation summary and diagnostics *)

Lemma append_unless_app ok msg errors :
  append_unless ok msg errors = errors ++ (if ok then [] else [msg]).
Proof. destruct ok; simpl; [by rewrite app_nil_r | done]. Qed.

Lemma summary_lookups self p :
  let summary := get_validation_summary self p in
  summary !! "length"%string = Some (validate_length self p)
  /\ summary !! "uppercase"%string = Some (validate_uppercase self p)
  /\ summary !! "lowercase"%string = Some (validate_lowercase self p)
  /\ summary !! "digit"%string = Some (validate_digit self p)
  /\ summary !! "special_char"%string = Some (validate_special_char self p).
Proof.
  unfold get_validation_summary; cbn zeta.
  repeat split; by simplify_map_eq.
Qed.

(** C7: the summary has exactly the five entries length, uppercase,
    lowercase, digit and special_char, each holding the value of its
    predicate; the errors are the diagnostics of the entries that are
    false, in rule order, so there are as many errors as false entries;
    and [is_valid] holds exactly when there is no error. *)
Theorem C7_summary_errors_is_valid (self : PasswordValidator) (p : str) :
  let summary := get_validation_summary self p in
  let errors := get_validation_errors self p in
  dom summary
  = {[ "length"; "uppercase"; "lowercase"; "digit"; "special_char" ]}%string
  /\ size summary = 5%nat
  /\ (summary !! "length"%string = Some (validate_length self p)
      /\ summary !! "uppercase"%string = Some (validate_uppercase self p)
      /\ summary !! "lowercase"%string = Some (validate_lowercase self p)
      /\ summary !! "digit"%string = Some (validate_digit self p)
      /\ summary !! "special_char"%string = Some (validate_special_char self p))
  /\ errors = omap (failed_message summary) (rule_messages self)
  /\ length errors = size (filter (fun kv => kv.2 = false) summary)
  /\ (is_valid self p = true <-> errors = []).
Proof.
  intros summary errors.
  split; [| split; [| split; [| split; [| split]]]].
  - subst summary. unfold get_validation_summary.
    rewrite !dom_insert_L, dom_empty_L. set_solver.
  - subst summary. unfold get_validation_summary.
    rewrite !map_size_insert_None; [done | by simplify_map_eq ..].
  - apply summary_lookups.
  - destruct (summary_lookups self p) as (Hl & Hu & Hlo & Hd & Hs).
    fold summary in Hl, Hu, Hlo, Hd, Hs.
    subst errors. unfold get_validation_errors, rule_messages, failed_message.
    cbn [omap list_omap fst snd]. rewrite Hl, Hu, Hlo, Hd, Hs.
    rewrite !append_unless_app.
    destruct (validate_length self p), (validate_uppercase self p),
      (validate_lowercase self p), (validate_digit self p),
      (validate_special_char self p); reflexivity.
  - subst errors summary.
    unfold get_validation_errors, get_validation_summary.
    destruct (validate_length self p), (validate_uppercase self p),
      (validate_lowercase self p), (validate_digit self p),
      (validate_special_char self p); vm_compute; reflexivity.
  - subst errors. unfold is_valid.
    destruct (get_validation_errors self p) as [| e es]; simpl.
    + split; reflexivity.
    + split; [lia | discriminate].
Qed.

(** ** Character classes *)

Lemma search_class_skip (cls : char -> bool) (c : char) (p1 p2 : str) :
  cls c = false ->
  Re.search_class cls (p1 ++ c :: p2) = Re.search_class cls (p1 ++ p2).
Proof.
  intros Hc. unfold Re.search_class. rewrite !existsb_app. simpl.
  rewrite Hc. reflexivity.
Qed.

Lemma ascii_digit_class (c : char) : 48 <= c <= 57 -> Re.digit_class c = true.
Proof.
  intros Hc. unfold Re.digit_class, Re.decimal_runs. cbn [existsb].
  unfold Re.in_range at 1.
  destruct (Z.leb_spec 48 c); [| lia].
  destruct (Z.leb_spec c (48 + 9)); [reflexivity | lia].
Qed.

(** C2: [validate_digit] holds exactly when the password contains a
    Unicode decimal digit, which every ASCII digit 0-9 is; a character
    in none of the four classes (a space or an accented letter, say) can
    be removed without changing any of the four class predicates, while
    it does count toward the length. *)
Theorem C2_validate_digit (self : PasswordValidator) (p : str) :
  (validate_digit self p = true <-> exists c, In c p /\ Re.digit_class c = true)
  /\ (forall c, 48 <= c <= 57 -> Re.digit_class c = true)
  /\ outside_classes 32
  /\ outside_classes 233
  /\ (forall c p1 p2,
        outside_classes c ->
        validate_uppercase self (p1 ++ c :: p2) = validate_uppercase self (p1 ++ p2)
        /\ validate_lowercase self (p1 ++ c :: p2) = validate_lowercase self (p1 ++ p2)
        /\ validate_digit self (p1 ++ c :: p2) = validate_digit self (p1 ++ p2)
        /\ validate_special_char self (p1 ++ c :: p2)
           = validate_special_char self (p1 ++ p2))
  /\ (forall c p1 p2, len (p1 ++ c :: p2) = len (p1 ++ p2) + 1).
Proof.
  split; [| split; [| split; [| split; [| split]]]].
  - unfold validate_digit, digit_pattern, Re.search_class. apply existsb_exists.
  - apply ascii_digit_class.
  - vm_compute. auto.
  - vm_compute. auto.
  - intros c p1 p2 (Hu & Hl & Hd & Hs).
    unfold validate_uppercase, validate_lowercase, validate_digit,
      validate_special_char, uppercase_pattern, lowercase_pattern,
      digit_pattern, special_char_pattern.
    rewrite !search_class_skip by assumption. auto.
  - intros c p1 p2. unfold len. rewrite !length_app. simpl. lia.
Qed.

Lemma C2_validate_digit_witness :
  Re.digit_class 53 = true
  /\ validate_uppercase (validator checker) (of_string "ab" ++ 32 :: of_string "Cd")
     = validate_uppercase (validator checker) (of_string "ab" ++ of_string "Cd").
Proof.
  destruct (C2_validate_digit (validator checker) []) as (_ & Hascii & _ & _ & Hskip & _).
  split.
  - apply Hascii. lia.
  - apply Hskip. vm_compute. auto.
Defined.

(** The Arabic-Indic digit three (U+0663) is not in 0-9 and yet
    satisfies [validate_digit]; and a space, which is in none of the four
    classes, makes a seven-letter password pass the length rule. *)
Lemma C2_counterexample :
  (validate_digit (validator checker) [0x663] = true
   /\ ~ (exists c, In c [0x663] /\ 48 <= c <= 57))
  /\ (outside_classes 32
      /\ validate_length (validator checker) (of_string "abcdefg") = false
      /\ validate_length (validator checker) (of_string "abcdefg" ++ [32]) = true).
Proof.
  split; split.
  - vm_compute. reflexivity.
  - intros (c & [<- | []] & Hc). lia.
  - vm_compute. auto.
  - split; vm_compute; reflexivity.
Qed.

(** ** Recommendations *)

Lemma append_if_app cond msg recommendations :
  append_if cond msg recommendations
  = recommendations ++ (if cond then [msg] else []).
Proof. destruct cond; simpl; [done | by rewrite app_nil_r]. Qed.

Lemma recommendations_filter self p :
  get_strength_recommendations self p
  = (filter (fun check => check.1 = true) (recommendation_checks self p)).*2.
Proof.
  unfold get_strength_recommendations, recommendation_checks.
  rewrite !append_if_app.
  destruct (len p <? 12), (validate_uppercase (validator self) p),
    (validate_lowercase (validator self) p), (validate_digit (validator self) p),
    (validate_special_char (validator self) p), (repeating_chars_pattern p),
    (sequential_chars_pattern p); reflexivity.
Qed.

(** C8: [get_strength_recommendations] runs the seven checks (length
    below 12, missing uppercase, lowercase, digit, special character,
    repeating pattern, sequential pattern) in that order; its result is
    the advisories of exactly the triggered checks, in check order, and
    it is empty exactly when no check is triggered. *)
Theorem C8_recommendations_checklist (self : PasswordStrengthChecker) (p : str) :
  let checks := recommendation_checks self p in
  checks.*2 = [ longer_advice; uppercase_advice; lowercase_advice; digit_advice;
                special_char_advice; repeating_advice; sequential_advice ]
  /\ get_strength_recommendations self p
     = (filter (fun check => check.1 = true) checks).*2
  /\ (get_strength_recommendations self p = []
      <-> Forall (fun check => check.1 = false) checks).
Proof.
  intros checks. split; [reflexivity |]. split; [apply recommendations_filter |].
  rewrite recommendations_filter. fold checks.
  split.
  - intros Hnil. apply fmap_nil_inv in Hnil.
    apply Forall_forall. intros check Hin.
    destruct (check.1) eqn:Hc; [| reflexivity].
    assert (check ∈ filter (fun check => check.1 = true) checks) as Hf
      by (apply list_elem_of_filter; done).
    rewrite Hnil in Hf. by apply elem_of_nil in Hf.
  - intros Hall. induction Hall as [| check rest Hc _ IH]; [reflexivity |].
    rewrite filter_cons. destruct (decide (check.1 = true)) as [Ht | _].
    + congruence.
    + exact IH.
Qed.

(** ** The two penalty patterns *)

Section Search.
Variable m : str -> bool.

Lemma search_suffix (p1 p2 : str) : m p2 = true -> Re.search m (p1 ++ p2) = true.
Proof.
  intros Hm. induction p1 as [| c p1 IH]; simpl.
  - destruct p2; simpl; rewrite Hm; reflexivity.
  - rewrite IH. apply orb_true_r.
Qed.

Lemma search_true (s : str) :
  Re.search m s = true <-> exists p1 p2, s = p1 ++ p2 /\ m p2 = true.
Proof.
  split.
  - induction s as [| c s IH]; simpl; intros H.
    + apply orb_true_iff in H as [H | H]; [| discriminate].
      exists [], []. split; [reflexivity | exact H].
    + apply orb_true_iff in H as [H | H].
      * exists [], (c :: s). split; [reflexivity | exact H].
      * destruct (IH H) as (p1 & p2 & -> & Hm).
        exists (c :: p1), p2. split; [reflexivity | exact Hm].
  - intros (p1 & p2 & -> & Hm). by apply search_suffix.
Qed.
End Search.

(** The repeating pattern is found exactly when some character other
    than the line feed occurs three times in a row. *)
Lemma repeating_chars_pattern_true (p : str) :
  repeating_chars_pattern p = true
  <-> exists c p1 p2, c <> 10 /\ p = p1 ++ [c; c; c] ++ p2.
Proof.
  unfold repeating_chars_pattern. rewrite search_true. split.
  - intros (p1 & p2 & -> & Hm).
    destruct p2 as [| c [| c1 [| c2 p2]]]; simpl in Hm; try discriminate.
    apply andb_true_iff in Hm as [Hm H2]. apply andb_true_iff in Hm as [Hd H1].
    apply Z.eqb_eq in H1, H2. subst c1 c2.
    exists c, p1, p2. split; [| reflexivity].
    unfold Re.dot in Hd. apply negb_true_iff, Z.eqb_neq in Hd. exact Hd.
  - intros (c & p1 & p2 & Hc & ->). exists p1, ([c; c; c] ++ p2).
    split; [reflexivity |]. simpl. unfold Re.dot.
    apply Z.eqb_neq in Hc. rewrite Hc, Z.eqb_refl. reflexivity.
Qed.

Lemma match_literal_ignorecase_true (lo c : char) :
  Re.match_literal_ignorecase lo c = true <-> caseless lo c.
Proof.
  unfold Re.match_literal_ignorecase, caseless, Re.lower_class, Re.in_range.
  rewrite orb_true_iff, andb_true_iff, orb_true_iff, andb_true_iff.
  rewrite Z.eqb_eq, !Z.leb_le, Z.eqb_eq, existsb_exists.
  split.
  - intros [H | [Hr [H | (x & Hin & Hx)]]]; [by left | right; split; auto ..].
    apply Z.eqb_eq in Hx. subst x. by right.
  - intros [H | [Hr [H | Hin]]]; [by left | right; split; auto ..].
    right. exists c. split; [exact Hin | apply Z.eqb_refl].
Qed.

Lemma match_word_ignorecase_true (w s : str) :
  Re.match_word_ignorecase w s = true
  <-> exists t rest, s = t ++ rest /\ Forall2 caseless w t.
Proof.
  revert s. induction w as [| a w IH]; intros s; simpl.
  - split; [| reflexivity]. intros _. exists [], s. split; [reflexivity | constructor].
  - destruct s as [| c s].
    + split; [discriminate |]. intros (t & rest & Hs & Hall).
      inversion Hall; subst. discriminate.
    + rewrite andb_true_iff, match_literal_ignorecase_true, IH. split.
      * intros (Hc & t & rest & -> & Hall). exists (c :: t), rest.
        split; [reflexivity | by constructor].
      * intros (t & rest & Hs & Hall). inversion Hall as [| ? c' ? t' Hc Hall']; subst.
        simpl in Hs. injection Hs as -> ->. split; [exact Hc |]. by exists t', rest.
Qed.

(** The sequential pattern is found exactly when three consecutive
    characters spell, up to case, one of the words of the pattern. *)
Lemma sequential_chars_pattern_true (p : str) :
  sequential_chars_pattern p = true
  <-> exists w p1 t p2,
        In w Re.sequential_words /\ p = p1 ++ t ++ p2
        /\ Forall2 caseless (of_string w) t.
Proof.
  unfold sequential_chars_pattern. rewrite search_true. split.
  - intros (p1 & s & -> & Hm). unfold Re.match_sequential in Hm.
    apply existsb_exists in Hm as (w & Hin & Hw).
    apply match_word_ignorecase_true in Hw as (t & p2 & -> & Hall).
    by exists w, p1, t, p2.
  - intros (w & p1 & t & p2 & Hin & -> & Hall). exists p1, (t ++ p2).
    split; [reflexivity |]. unfold Re.match_sequential.
    apply existsb_exists. exists w. split; [exact Hin |].
    apply match_word_ignorecase_true. by exists t, p2.
Qed.

(** Every word of the pattern has three characters. *)
Lemma sequential_words_triplets :
  length Re.sequential_words = 32%nat
  /\ Forall (fun w => length (of_string w) = 3%nat) Re.sequential_words.
Proof. split; [reflexivity |]. repeat constructor. Qed.

(** ** Complexity score *)

Lemma complexity_score_formula (self : PasswordStrengthChecker) (p : str) :
  calculate_complexity_score self p
  = complexity_formula (repeating_chars_pattern p) (sequential_chars_pattern p)
      (validate_uppercase (validator self) p && validate_lowercase (validator self) p)
      (validate_digit (validator self) p && validate_special_char (validator self) p).
Proof.
  unfold calculate_complexity_score. case_features self p; vm_compute; reflexivity.
Qed.

(** C3: the complexity score is 1.0 minus 0.3 if the repeating pattern
    (a character other than the line feed three times in a row) is found,
    minus 0.2 if the sequential pattern (one of the 32 three-letter words,
    up to case) is found, plus 0.1 for mixed case, plus 0.1 for digit and
    special character, clamped to [[0, 1]], all in binary64 arithmetic;
    with both penalties and no bonus the score is 0.49999999999999994. *)
Theorem C3_complexity_score (self : PasswordStrengthChecker) (p : str) :
  let v := validator self in
  calculate_complexity_score self p
  = complexity_formula (repeating_chars_pattern p) (sequential_chars_pattern p)
      (validate_uppercase v p && validate_lowercase v p)
      (validate_digit v p && validate_special_char v p)
  /\ (repeating_chars_pattern p = true
      <-> exists c p1 p2, c <> 10 /\ p = p1 ++ [c; c; c] ++ p2)
  /\ (length Re.sequential_words = 32%nat
      /\ Forall (fun w => length (of_string w) = 3%nat) Re.sequential_words)
  /\ (sequential_chars_pattern p = true
      <-> exists w p1 t p2,
            In w Re.sequential_words /\ p = p1 ++ t ++ p2
            /\ Forall2 caseless (of_string w) t)
  /\ (repeating_chars_pattern p = true ->
      sequential_chars_pattern p = true ->
      validate_uppercase v p && validate_lowercase v p = false ->
      validate_digit v p && validate_special_char v p = false ->
      calculate_complexity_score self p = 0.49999999999999994%float).
Proof.
  intros v. subst v.
  split; [apply complexity_score_formula |].
  split; [apply repeating_chars_pattern_true |].
  split; [apply sequential_words_triplets |].
  split; [apply sequential_chars_pattern_true |].
  intros Hr Hs Hc Hd. rewrite complexity_score_formula, Hr, Hs, Hc, Hd.
  vm_compute. reflexivity.
Qed.

Lemma C3_complexity_score_witness :
  calculate_complexity_score checker (of_string "aaabc") = 0.49999999999999994%float.
Proof.
  apply (C3_complexity_score checker (of_string "aaabc")); vm_compute; reflexivity.
Defined.

(** A repeat, a sequence and no bonus: the score is not 0.5; and three
    line feeds in a row are not penalised. *)
Lemma C3_counterexample :
  (repeating_chars_pattern (of_string "aaabc") = true
   /\ sequential_chars_pattern (of_string "aaabc") = true
   /\ validate_uppercase (validator checker) (of_string "aaabc") = false
   /\ validate_digit (validator checker) (of_string "aaabc") = false
   /\ calculate_complexity_score checker (of_string "aaabc") <> 0.5%float)
  /\ calculate_complexity_score checker [10; 10; 10] = 1.0%float.
Proof.
  split; [| vm_compute; reflexivity].
  repeat (split; [vm_compute; reflexivity |]).
  intros H. apply (f_equal (fun x => (x <? 0.5)%float)) in H.
  vm_compute in H. discriminate H.
Qed.

(** C9: the complexity score lies between 0.49999999999999994 (the
    binary64 value of 1.0 - 0.3 - 0.2) and 1.0, so it is positive and the
    lower clamp never applies; and the overall score is at least 0.15. *)
Theorem C9_complexity_overall_lower_bound (p : str) :
  (0.49999999999999994 <=? calculate_complexity_score checker p)%float = true
  /\ (calculate_complexity_score checker p <=? 1.0)%float = true
  /\ (0.0 <? calculate_complexity_score checker p)%float = true
  /\ (0.15 <=? calculate_overall_score checker p)%float = true.
Proof.
  unfold_overall. case_features checker p; case_length p; vm_compute; auto.
Qed.

(** With a repeat, a sequence and no bonus the complexity score is
    below 0.5. *)
Lemma C9_counterexample :
  (calculate_complexity_score checker (of_string "aaabc") <? 0.5)%float = true.
Proof. vm_compute. reflexivity. Qed.

(** ** Overall score and category *)

Lemma overall_score_ok (p : str) : overall_ok (calculate_overall_score checker p) = true.
Proof.
  unfold_overall. case_features checker p; case_length p; vm_compute; reflexivity.
Qed.

(** The binary64 result is the decimal result: rounding removes the
    representation error of the weighted sum. *)
Lemma overall_score_exact (p : str) :
  calculate_overall_score checker p = (float_of_int (overall_hundredths p) / 100.0)%float.
Proof.
  unfold_overall.
  unfold overall_hundredths, length_tenths, variety_quarters, complexity_tenths.
  case_features checker p; case_length p; vm_compute; reflexivity.
Qed.

Lemma overall_hundredths_range (p : str) : 0 <= overall_hundredths p <= 100.
Proof.
  unfold overall_hundredths, length_tenths, variety_quarters, complexity_tenths.
  case_features checker p; case_length p; vm_compute; split; discriminate.
Qed.

(** C4: the overall score lies in [[0, 1]]; it is the weighted sum
    0.3 * length + 0.4 * variety + 0.3 * complexity rounded to two
    decimals, a whole number of hundredths that is also what exact
    decimal arithmetic gives; and its category is Weak below 0.4, Medium
    from 0.4 and below 0.7, Strong from 0.7. *)
Theorem C4_overall_score_category (p : str) :
  let s := calculate_overall_score checker p in
  (0.0 <=? s)%float = true
  /\ (s <=? 1.0)%float = true
  /\ s = Py.round (calculate_length_score checker p * 0.3
                   + calculate_variety_score checker p * 0.4
                   + calculate_complexity_score checker p * 0.3)%float 2
  /\ (s = (float_of_int (overall_hundredths p) / 100.0)%float
      /\ 0 <= overall_hundredths p <= 100)
  /\ ((s <? 0.4)%float = true -> get_strength_category checker s = "Weak"%string)
  /\ ((0.4 <=? s)%float = true -> (s <? 0.7)%float = true ->
      get_strength_category checker s = "Medium"%string)
  /\ ((0.7 <=? s)%float = true -> get_strength_category checker s = "Strong"%string).
Proof.
  intros s. pose proof (overall_score_ok p) as Hok. fold s in Hok.
  unfold overall_ok, category_consistent in Hok.
  apply andb_true_iff in Hok as [Hok Hcat].
  apply andb_true_iff in Hok as [Hlo Hhi].
  apply andb_true_iff in Hcat as [Hcat Hstrong].
  apply andb_true_iff in Hcat as [Hweak Hmedium].
  split; [exact Hlo |]. split; [exact Hhi |]. split; [reflexivity |].
  split; [split; [apply overall_score_exact | apply overall_hundredths_range] |].
  split; [| split].
  - intros Hlt. rewrite Hlt in Hweak. by apply String.eqb_eq.
  - intros Hle Hlt. rewrite Hle, Hlt in Hmedium. by apply String.eqb_eq.
  - intros Hle. rewrite Hle in Hstrong. by apply String.eqb_eq.
Qed.

Lemma C4_overall_score_category_witness :
  get_strength_category checker
    (calculate_overall_score checker (of_string "aaabc")) = "Weak"%string
  /\ get_strength_category checker
       (calculate_overall_score checker (of_string "short")) = "Medium"%string
  /\ get_strength_category checker
       (calculate_overall_score checker (of_string "Tr0ub4dor&3XyZ")) = "Strong"%string.
Proof.
  split; [| split].
  - destruct (C4_overall_score_category (of_string "aaabc"))
      as (_ & _ & _ & _ & Hweak & _ & _).
    apply Hweak. vm_compute. reflexivity.
  - destruct (C4_overall_score_category (of_string "short"))
      as (_ & _ & _ & _ & _ & Hmedium & _).
    apply Hmedium; vm_compute; reflexivity.
  - destruct (C4_overall_score_category (of_string "Tr0ub4dor&3XyZ"))
      as (_ & _ & _ & _ & _ & _ & Hstrong).
    apply Hstrong. vm_compute. reflexivity.
Defined.

(** ** Scenarios *)

(** C1: for "short" (5 characters, all lower case) the length score is
    0.0, the variety score 0.25, the validation errors are the four
    diagnostics for length, uppercase, digit and special character, the
    overall score is 0.4 and the category is Medium. *)
Theorem C1_short_scenario :
  let d := get_strength_details checker (of_string "short") in
  len (of_string "short") = 5
  /\ length_score d = 0.0%float
  /\ variety_score d = 0.25%float
  /\ validation_errors d
     = [ length_error (validator checker); uppercase_error; digit_error;
         special_char_error ]
  /\ length (validation_errors d) = 4%nat
  /\ complexity_score d = 1.0%float
  /\ overall_score d = 0.4%float
  /\ category d = "Medium"%string.
Proof. vm_compute. repeat split. Qed.

(** The category of "short" is not Weak. *)
Lemma C1_counterexample :
  category (get_strength_details checker (of_string "short")) <> "Weak"%string.
Proof. vm_compute. discriminate. Qed.

(** C5: for "Tr0ub4dor&3XyZ" (14 characters) the length score is 0.8,
    the variety score 1.0, the complexity score 1.0, the overall score
    0.94 and the category Strong. *)
Theorem C5_troubador_scenario :
  let d := get_strength_details checker (of_string "Tr0ub4dor&3XyZ") in
  len (of_string "Tr0ub4dor&3XyZ") = 14
  /\ length_score d = 0.8%float
  /\ variety_score d = 1.0%float
  /\ complexity_score d = 1.0%float
  /\ overall_score d = 0.94%float
  /\ category d = "Strong"%string.
Proof. vm_compute. repeat split. Qed.

(** The complexity score of that password is 1.0 although its last
    three characters spell xyz up to case: the sequence penalty and the
    two bonuses cancel. *)
Lemma troubador_sequence :
  sequential_chars_pattern (of_string "Tr0ub4dor&3XyZ") = true
  /\ repeating_chars_pattern (of_string "Tr0ub4dor&3XyZ") = false
  /\ (1.0 - 0.2 + 0.1 + 0.1)%float = 1.0%float.
Proof. vm_compute. repeat split. Qed.

(** C10: some password is invalid under the five rules, with a
    non-empty list of errors, and yet Strong: a long lower-case password
    with a digit and a special character but no upper-case letter. *)
Theorem C10_invalid_yet_strong :
  exists p : str,
    let d := get_strength_details checker p in
    16 < len p
    /\ validate_uppercase (validator checker) p = false
    /\ validate_lowercase (validator checker) p = true
    /\ validate_digit (validator checker) p = true
    /\ validate_special_char (validator checker) p = true
    /\ details_is_valid d = false
    /\ validation_errors d <> []
    /\ category d = "Strong"%string.
Proof.
  exists (of_string "correcthorse9battery!staple"). vm_compute.
  repeat split; discriminate.
Qed.

(** * Further properties of the validator and the scorer *)

(** ** Character classes and variety *)

Lemma digit_class_range (c : char) :
  Re.digit_class c = true -> 48 <= c <= 57 \/ 0x660 <= c.
Proof.
  unfold Re.digit_class, Re.decimal_runs. cbn [existsb]. unfold Re.in_range.
  intros H.
  repeat (apply orb_true_iff in H as [H | H]); try discriminate;
    apply andb_true_iff in H as [H1 H2];
    apply Z.leb_le in H1; apply Z.leb_le in H2; lia.
Qed.

Lemma special_class_alone (c : char) :
  Re.special_class c = true -> alnum_class c = false.
Proof.
  unfold Re.special_class. intros H.
  apply existsb_exists in H as (x & Hin & Hx). apply Z.eqb_eq in Hx. subst x.
  vm_compute in Hin.
  repeat (destruct Hin as [<- | Hin]; [reflexivity |]). destruct Hin.
Qed.

Lemma class_count_le_1 (c : char) : 0 <= class_count c <= 1.
Proof.
  unfold class_count.
  destruct (Re.special_class c) eqn:Hs.
  - apply special_class_alone in Hs. unfold alnum_class in Hs.
    apply orb_false_iff in Hs as [Hs Hd]. apply orb_false_iff in Hs as [Hu Hl].
    rewrite Hu, Hl, Hd. simpl. lia.
  - destruct (Re.digit_class c) eqn:Hd.
    + apply digit_class_range in Hd. unfold Re.upper_class, Re.lower_class, Re.in_range.
      destruct (Z.leb_spec 65 c), (Z.leb_spec c 90), (Z.leb_spec 97 c),
        (Z.leb_spec c 122); simpl; lia.
    + unfold Re.upper_class, Re.lower_class, Re.in_range.
      destruct (Z.leb_spec 65 c), (Z.leb_spec c 90), (Z.leb_spec 97 c),
        (Z.leb_spec c 122); simpl; lia.
Qed.

Lemma b2z_orb_le (a b : bool) : Z.b2z (a || b) <= Z.b2z a + Z.b2z b.
Proof. destruct a, b; simpl; lia. Qed.

Lemma variety_quarters_cons (self : PasswordValidator) (c : char) (p : str) :
  variety_quarters self (c :: p) <= class_count c + variety_quarters self p.
Proof.
  unfold variety_quarters, class_count, validate_uppercase, validate_lowercase,
    validate_digit, validate_special_char, uppercase_pattern, lowercase_pattern,
    digit_pattern, special_char_pattern, Re.search_class.
  cbn [existsb].
  pose proof (b2z_orb_le (Re.upper_class c) (existsb Re.upper_class p)).
  pose proof (b2z_orb_le (Re.lower_class c) (existsb Re.lower_class p)).
  pose proof (b2z_orb_le (Re.digit_class c) (existsb Re.digit_class p)).
  pose proof (b2z_orb_le (Re.special_class c) (existsb Re.special_class p)).
  lia.
Qed.

(** X1: no character is in two of the four classes, so a password has
    at most as many classes as characters. *)
Theorem X1_classes_disjoint (self : PasswordValidator) (p : str) :
  (forall c, 0 <= class_count c <= 1)
  /\ 0 <= variety_quarters self p <= Z.min 4 (len p).
Proof.
  split; [apply class_count_le_1 |].
  assert (0 <= variety_quarters self p <= 4) as H4.
  { unfold variety_quarters.
    destruct (validate_uppercase self p), (validate_lowercase self p),
      (validate_digit self p), (validate_special_char self p); simpl; lia. }
  assert (variety_quarters self p <= len p) as Hlen.
  { clear H4. induction p as [| c p IH].
    - vm_compute. discriminate.
    - pose proof (variety_quarters_cons self c p).
      pose proof (class_count_le_1 c).
      unfold len in *. simpl length. lia. }
  lia.
Qed.

(** X2: the variety score is the number of classes present divided by
    four, hence one of 0, 0.25, 0.5, 0.75, 1; it is 1 exactly when all
    four predicates hold and 0 exactly when none does. *)
Theorem X2_variety_score (self : PasswordStrengthChecker) (p : str) :
  let v := validator self in
  let score := calculate_variety_score self p in
  score = (float_of_int (variety_quarters v p) / 4.0)%float
  /\ In score [0.0; 0.25; 0.5; 0.75; 1.0]%float
  /\ (score = 1.0%float
      <-> validate_uppercase v p && validate_lowercase v p
          && validate_digit v p && validate_special_char v p = true)
  /\ (score = 0.0%float
      <-> validate_uppercase v p || validate_lowercase v p
          || validate_digit v p || validate_special_char v p = false).
Proof.
  intros v score. subst v score.
  unfold calculate_variety_score, variety_quarters.
  destruct (validate_uppercase (validator self) p),
    (validate_lowercase (validator self) p),
    (validate_digit (validator self) p),
    (validate_special_char (validator self) p);
    vm_compute;
    (split; [reflexivity |]);
    (split; [tauto |]);
    split; split; intros H; try reflexivity; try discriminate H;
      apply (f_equal (fun x => (x <? 0.9)%float)) in H
      || apply (f_equal (fun x => (0.1 <? x)%float)) in H;
      vm_compute in H; discriminate H.
Qed.

(** ** Validity *)

Lemma is_valid_predicates (self : PasswordValidator) (p : str) :
  is_valid self p
  = validate_length self p && validate_uppercase self p
    && validate_lowercase self p && validate_digit self p
    && validate_special_char self p.
Proof.
  unfold is_valid, get_validation_errors.
  destruct (validate_length self p), (validate_uppercase self p),
    (validate_lowercase self p), (validate_digit self p),
    (validate_special_char self p); reflexivity.
Qed.

Lemma is_valid_true (self : PasswordValidator) (p : str) :
  is_valid self p = true
  <-> validate_length self p = true /\ validate_uppercase self p = true
      /\ validate_lowercase self p = true /\ validate_digit self p = true
      /\ validate_special_char self p = true.
Proof.
  rewrite is_valid_predicates, !andb_true_iff. tauto.
Qed.

(** X3: a password is valid exactly when all five predicates hold; a
    valid password therefore has at least [min_length] characters and at
    least four of them. *)
Theorem X3_is_valid_all_rules (self : PasswordValidator) (p : str) :
  is_valid self p = true
  <-> (validate_length self p = true /\ validate_uppercase self p = true
       /\ validate_lowercase self p = true /\ validate_digit self p = true
       /\ validate_special_char self p = true
       /\ Z.max 4 (min_length self) <= len p).
Proof.
  rewrite is_valid_true. split; [| tauto].
  intros (Hl & Hu & Hlo & Hd & Hs). repeat (split; [assumption |]).
  assert (variety_quarters self p = 4) as H4
    by (unfold variety_quarters; rewrite Hu, Hlo, Hd, Hs; reflexivity).
  assert (variety_quarters self p <= len p) as Hlen.
  { clear. induction p as [| c p IH].
    - vm_compute. discriminate.
    - pose proof (variety_quarters_cons self c p).
      pose proof (class_count_le_1 c).
      unfold len in *. simpl length. lia. }
  unfold validate_length in Hl. apply Z.leb_le in Hl. lia.
Qed.

Lemma search_class_app (cls : char -> bool) (p q : str) :
  Re.search_class cls (p ++ q) = Re.search_class cls p || Re.search_class cls q.
Proof. apply existsb_app. Qed.

Lemma len_app (p q : str) : len (p ++ q) = len p + len q.
Proof. unfold len. rewrite length_app. lia. Qed.

Lemma len_nonneg (p : str) : 0 <= len p.
Proof. unfold len. lia. Qed.

(** X4: adding characters in front of or behind a password never
    breaks a rule it satisfied: each of the five predicates, and so
    validity, is kept. *)
Theorem X4_extension_keeps_rules (self : PasswordValidator) (p1 p p2 : str) :
  (validate_length self p = true -> validate_length self (p1 ++ p ++ p2) = true)
  /\ (validate_uppercase self p = true ->
      validate_uppercase self (p1 ++ p ++ p2) = true)
  /\ (validate_lowercase self p = true ->
      validate_lowercase self (p1 ++ p ++ p2) = true)
  /\ (validate_digit self p = true -> validate_digit self (p1 ++ p ++ p2) = true)
  /\ (validate_special_char self p = true ->
      validate_special_char self (p1 ++ p ++ p2) = true)
  /\ (is_valid self p = true -> is_valid self (p1 ++ p ++ p2) = true).
Proof.
  assert (Hlen : validate_length self p = true ->
                 validate_length self (p1 ++ p ++ p2) = true).
  { unfold validate_length. rewrite !len_app. intros H. apply Z.leb_le in H.
    apply Z.leb_le. pose proof (len_nonneg p1). pose proof (len_nonneg p2). lia. }
  assert (Hcls : forall cls, Re.search_class cls p = true ->
                             Re.search_class cls (p1 ++ p ++ p2) = true).
  { intros cls H. rewrite !search_class_app, H. apply orb_true_iff. right. reflexivity. }
  split; [exact Hlen |].
  repeat (split; [apply Hcls |]).
  rewrite !is_valid_true. intros (Hl & Hu & Hlo & Hd & Hs).
  split; [by apply Hlen |]. repeat split; by apply Hcls.
Qed.

Lemma X4_extension_keeps_rules_witness :
  is_valid (validator checker) (of_string "xx" ++ of_string "Passw0rd!" ++ of_string "yy")
  = true.
Proof.
  destruct (X4_extension_keeps_rules (validator checker) (of_string "xx")
              (of_string "Passw0rd!") (of_string "yy")) as (_ & _ & _ & _ & _ & Hvalid).
  apply Hvalid. vm_compute. reflexivity.
Defined.

(** X5: raising [min_length] only makes the validator stricter: what a
    validator accepts, every validator with a smaller or equal minimum
    accepts, and the two differ on the length rule only. *)
Theorem X5_min_length_stricter (v1 v2 : PasswordValidator) (p : str) :
  min_length v1 <= min_length v2 ->
  (validate_length v2 p = true -> validate_length v1 p = true)
  /\ (is_valid v2 p = true -> is_valid v1 p = true)
  /\ validate_uppercase v1 p = validate_uppercase v2 p
  /\ validate_lowercase v1 p = validate_lowercase v2 p
  /\ validate_digit v1 p = validate_digit v2 p
  /\ validate_special_char v1 p = validate_special_char v2 p.
Proof.
  intros Hle.
  assert (Hlen : validate_length v2 p = true -> validate_length v1 p = true).
  { unfold validate_length. intros H. apply Z.leb_le in H. apply Z.leb_le. lia. }
  split; [exact Hlen |]. split; [| repeat split].
  rewrite !is_valid_true. intros (Hl & Hrest). split; [by apply Hlen | exact Hrest].
Qed.

Lemma X5_min_length_stricter_witness :
  is_valid (Validator.__init__ 8) (of_string "Tr0ub4dor&3XyZ") = true.
Proof.
  assert (min_length (Validator.__init__ 8) <= min_length (Validator.__init__ 12))
    as Hle by (vm_compute; discriminate).
  destruct (X5_min_length_stricter (Validator.__init__ 8) (Validator.__init__ 12)
              (of_string "Tr0ub4dor&3XyZ") Hle) as (_ & Hvalid & _).
  apply Hvalid. vm_compute. reflexivity.
Defined.



(** ** Scores of valid and of flawless passwords *)

Lemma default_length_rule (p : str) :
  validate_length (validator checker) p = negb (len p <? 8).
Proof.
  unfold validate_length. change (min_length (validator checker)) with 8.
  destruct (Z.leb_spec 8 (len p)), (Z.ltb_spec (len p) 8); simpl; lia || reflexivity.
Qed.

(** X7: under the default configuration every valid password is rated
    Strong, with an overall score of at least 0.7. *)
Theorem X7_valid_is_strong (p : str) :
  let d := get_strength_details checker p in
  details_is_valid d = true ->
  variety_score d = 1.0%float
  /\ 70 <= overall_hundredths p
  /\ (0.7 <=? overall_score d)%float = true
  /\ category d = "Strong"%string.
Proof.
  cbn zeta. unfold get_strength_details; cbn [details_is_valid variety_score
    overall_score category].
  rewrite is_valid_true, default_length_rule.
  intros (Hl & Hu & Hlo & Hd & Hs). apply negb_true_iff in Hl.
  unfold overall_hundredths, length_tenths, variety_quarters, complexity_tenths.
  unfold_overall. rewrite Hl, Hu, Hlo, Hd, Hs.
  destruct (repeating_chars_pattern p), (sequential_chars_pattern p),
    (len p <=? 10), (len p <=? 12), (len p <=? 16);
    vm_compute; repeat split; discriminate.
Qed.

Lemma X7_valid_is_strong_witness :
  category (get_strength_details checker (of_string "Passw0rd!")) = "Strong"%string.
Proof.
  apply (X7_valid_is_strong (of_string "Passw0rd!")). vm_compute. reflexivity.
Defined.

(** X8: a password that gets no recommendation is valid, has variety
    and complexity scores of 1.0, an overall score of at least 0.88 and
    the category Strong. *)
Theorem X8_no_recommendation (p : str) :
  get_strength_recommendations checker p = [] ->
  is_valid (validator checker) p = true
  /\ calculate_variety_score checker p = 1.0%float
  /\ calculate_complexity_score checker p = 1.0%float
  /\ (0.88 <=? calculate_overall_score checker p)%float = true
  /\ get_strength_category checker (calculate_overall_score checker p)
     = "Strong"%string.
Proof.
  unfold get_strength_recommendations. rewrite !append_if_app.
  rewrite is_valid_predicates, default_length_rule. unfold_overall.
  destruct (Z.ltb_spec (len p) 12) as [Hlt | Hge];
    [destruct (validate_uppercase (validator checker) p),
       (validate_lowercase (validator checker) p),
       (validate_digit (validator checker) p),
       (validate_special_char (validator checker) p),
       (repeating_chars_pattern p), (sequential_chars_pattern p); discriminate |].
  destruct (Z.ltb_spec (len p) 8); [lia |].
  destruct (Z.leb_spec (len p) 10); [lia |].
  case_features checker p; try discriminate.
  intros _. destruct (len p <=? 12), (len p <=? 16); vm_compute; repeat split.
Qed.

Lemma X8_no_recommendation_witness :
  is_valid (validator checker) (of_string "Tr0ub4dor&3Xy") = true.
Proof.
  apply (X8_no_recommendation (of_string "Tr0ub4dor&3Xy")). vm_compute. reflexivity.
Defined.

(** X9: the complexity score is 1.0 exactly when there is no repeat
    and either no sequence or both bonuses: with mixed case, a digit and
    a special character the sequence penalty is cancelled by the clamp. *)
Theorem X9_full_complexity (self : PasswordStrengthChecker) (p : str) :
  let v := validator self in
  calculate_complexity_score self p = 1.0%float
  <-> repeating_chars_pattern p = false
      /\ (sequential_chars_pattern p = false
          \/ validate_uppercase v p && validate_lowercase v p
             && validate_digit v p && validate_special_char v p = true).
Proof.
  cbn zeta. rewrite complexity_score_formula.
  case_features self p; vm_compute;
    (split;
     [ intros H;
       first [ by (split; [reflexivity | first [left; reflexivity | right; reflexivity]])
             | exfalso; apply (f_equal (fun x => (x <? 1.0)%float)) in H;
               vm_compute in H; discriminate H ]
     | intros (Hr & [Hs | Hb]); first [reflexivity | discriminate] ]).
Qed.

(** X10: the length score never decreases when the password gets longer. *)
Theorem X10_length_score_monotone (self : PasswordStrengthChecker) (p q : str) :
  len p <= len q ->
  (calculate_length_score self p <=? calculate_length_score self q)%float = true.
Proof.
  intros Hle. unfold calculate_length_score.
  destruct (Z.ltb_spec (len p) 8), (Z.leb_spec (len p) 10), (Z.leb_spec (len p) 12),
    (Z.leb_spec (len p) 16), (Z.ltb_spec (len q) 8), (Z.leb_spec (len q) 10),
    (Z.leb_spec (len q) 12), (Z.leb_spec (len q) 16);
    try lia; vm_compute; reflexivity.
Qed.

Lemma X10_length_score_monotone_witness :
  (calculate_length_score checker (of_string "short")
   <=? calculate_length_score checker (of_string "shorter and longer"))%float = true.
Proof.
  apply X10_length_score_monotone. vm_compute. discriminate.
Defined.

(** X11: the category in exact terms: Weak below 40 hundredths, Medium
    from 40 to 69, Strong from 70; binary64 rounding moves no score
    across a boundary. *)
Theorem X11_category_by_hundredths (p : str) :
  category (get_strength_details checker p)
  = if overall_hundredths p <? 40 then "Weak"%string
    else if overall_hundredths p <? 70 then "Medium"%string
    else "Strong"%string.
Proof.
  unfold get_strength_details; cbn [category].
  unfold overall_hundredths, length_tenths, variety_quarters, complexity_tenths.
  unfold_overall.
  case_features checker p; case_length p; vm_compute; reflexivity.
Qed.

(** ** What a sequence or a repeat implies *)

Lemma plain_literal_alnum (lo c : char) :
  plain_literal lo = true ->
  Re.match_literal_ignorecase lo c = true ->
  alnum_class c = true.
Proof.
  unfold plain_literal, Re.match_literal_ignorecase, alnum_class.
  intros Hp Hm. apply andb_true_iff in Hp as [Hlo Hextra].
  destruct (Re.caseless_extra lo); [| discriminate]. cbn [existsb] in Hm.
  rewrite orb_false_r in Hm.
  apply orb_true_iff in Hm as [Hm | Hm].
  - apply Z.eqb_eq in Hm. subst c.
    apply orb_true_iff in Hlo as [Hlo | Hlo].
    + rewrite Hlo. apply orb_true_iff. left. apply orb_true_r.
    + unfold Re.in_range in Hlo. apply andb_true_iff in Hlo as [H1 H2].
      apply Z.leb_le in H1, H2. rewrite ascii_digit_class by lia. apply orb_true_r.
  - apply andb_true_iff in Hm as [Hlow Hm]. apply Z.eqb_eq in Hm. subst c.
    unfold Re.lower_class, Re.in_range in Hlow.
    apply andb_true_iff in Hlow as [H1 H2]. apply Z.leb_le in H1, H2.
    assert (Re.upper_class (lo - 32) = true) as ->; [| reflexivity].
    unfold Re.upper_class, Re.in_range. apply andb_true_iff.
    split; apply Z.leb_le; lia.
Qed.

Lemma sequential_words_plain :
  forallb (fun w => match of_string w with
                    | a :: b :: _ => plain_literal a || plain_literal b
                    | _ => false
                    end) Re.sequential_words = true.
Proof. vm_compute. reflexivity. Qed.

Lemma match_sequential_alnum (s : str) :
  Re.match_sequential s = true -> existsb alnum_class s = true.
Proof.
  unfold Re.match_sequential. intros H.
  apply existsb_exists in H as (w & Hin & Hw).
  pose proof (proj1 (forallb_forall _ _) sequential_words_plain w Hin) as Hplain.
  cbv beta in Hplain.
  destruct (of_string w) as [| a [| b w']]; try discriminate.
  destruct s as [| x [| y s']]; simpl in Hw; try discriminate.
  - rewrite andb_false_r in Hw. discriminate.
  - apply andb_true_iff in Hw as [Hx Hw]. apply andb_true_iff in Hw as [Hy _].
    cbn [existsb]. apply orb_true_iff in Hplain as [Ha | Hb].
    + rewrite (plain_literal_alnum a x Ha Hx). reflexivity.
    + rewrite (plain_literal_alnum b y Hb Hy). apply orb_true_iff. right. reflexivity.
Qed.

Lemma existsb_alnum (self : PasswordValidator) (p : str) :
  existsb alnum_class p
  = validate_uppercase self p || validate_lowercase self p || validate_digit self p.
Proof.
  unfold validate_uppercase, validate_lowercase, validate_digit, uppercase_pattern,
    lowercase_pattern, digit_pattern, Re.search_class, alnum_class.
  induction p as [| c p IH]; [reflexivity |]. cbn [existsb]. rewrite IH.
  destruct (Re.upper_class c), (Re.lower_class c), (Re.digit_class c),
    (existsb Re.upper_class p), (existsb Re.lower_class p),
    (existsb Re.digit_class p); reflexivity.
Qed.

Lemma sequential_needs_alnum (self : PasswordValidator) (p : str) :
  sequential_chars_pattern p = true ->
  validate_uppercase self p || validate_lowercase self p || validate_digit self p
  = true.
Proof.
  unfold sequential_chars_pattern. intros H.
  apply search_true in H as (p1 & p2 & -> & Hm).
  rewrite <- existsb_alnum, existsb_app, (match_sequential_alnum p2 Hm).
  apply orb_true_r.
Qed.

Lemma repeating_needs_three (p : str) :
  repeating_chars_pattern p = true -> 3 <= len p.
Proof.
  intros H. apply repeating_chars_pattern_true in H as (c & p1 & p2 & _ & ->).
  rewrite !len_app. pose proof (len_nonneg p1). pose proof (len_nonneg p2).
  change (len [c; c; c]) with 3. lia.
Qed.

(** X12: a sequence needs an ASCII letter or a decimal digit and a
    repeat needs three characters; so no password scores below 0.21
    overall, the score of three spaces. *)
Theorem X12_overall_minimum (p : str) :
  (sequential_chars_pattern p = true ->
   validate_uppercase (validator checker) p
   || validate_lowercase (validator checker) p
   || validate_digit (validator checker) p = true)
  /\ (repeating_chars_pattern p = true -> 3 <= len p)
  /\ (0.21 <=? calculate_overall_score checker p)%float = true
  /\ calculate_overall_score checker (of_string "   ") = 0.21%float.
Proof.
  split; [apply sequential_needs_alnum |].
  split; [apply repeating_needs_three |].
  split; [| vm_compute; reflexivity].
  pose proof (sequential_needs_alnum (validator checker) p) as Hs. revert Hs.
  unfold_overall. case_features checker p; case_length p; intros Hs;
    vm_compute; try reflexivity;
    specialize (Hs eq_refl); discriminate Hs.
Qed.

Lemma X12_overall_minimum_witness :
  validate_uppercase (validator checker) (of_string "4XYZ")
  || validate_lowercase (validator checker) (of_string "4XYZ")
  || validate_digit (validator checker) (of_string "4XYZ") = true
  /\ 3 <= len (of_string "zzzz").
Proof.
  split.
  - destruct (X12_overall_minimum (of_string "4XYZ")) as (Hseq & _).
    apply Hseq. vm_compute. reflexivity.
  - destruct (X12_overall_minimum (of_string "zzzz")) as (_ & Hrep & _).
    apply Hrep. vm_compute. reflexivity.
Defined.

(** ** Recommendations against the patterns and the validation errors *)

Lemma search_extend (m : str -> bool) (p1 p p2 : str) :
  (forall s t, m s = true -> m (s ++ t) = true) ->
  Re.search m p = true -> Re.search m (p1 ++ p ++ p2) = true.
Proof.
  intros Hm H. apply search_true in H as (q1 & q2 & -> & Hq).
  apply search_true. exists (p1 ++ q1), (q2 ++ p2).
  split; [by rewrite <- !app_assoc | by apply Hm].
Qed.

Lemma match_repeating_app (s t : str) :
  Re.match_repeating s = true -> Re.match_repeating (s ++ t) = true.
Proof. destruct s as [| c [| c1 [| c2 s]]]; simpl; intros H; done. Qed.

Lemma match_word_ignorecase_app (w s t : str) :
  Re.match_word_ignorecase w s = true -> Re.match_word_ignorecase w (s ++ t) = true.
Proof.
  revert s. induction w as [| a w IH]; intros s; [reflexivity |].
  destruct s as [| c s]; simpl; [discriminate |].
  intros H. apply andb_true_iff in H as [Hc Hw]. rewrite Hc, (IH s Hw). reflexivity.
Qed.

Lemma match_sequential_app (s t : str) :
  Re.match_sequential s = true -> Re.match_sequential (s ++ t) = true.
Proof.
  unfold Re.match_sequential. intros H.
  apply existsb_exists in H as (w & Hin & Hw).
  apply existsb_exists. exists w. split; [exact Hin |].
  by apply match_word_ignorecase_app.
Qed.

(** X13: the repeat advisory is given exactly when the repeating
    pattern is found and the sequence advisory exactly when the
    sequential pattern is found; and a pattern found in a password is
    found in every password that contains it, so adding characters never
    removes either advisory. *)
Theorem X13_pattern_advisories (self : PasswordStrengthChecker) (p1 p p2 : str) :
  (In repeating_advice (get_strength_recommendations self p)
   <-> repeating_chars_pattern p = true)
  /\ (In sequential_advice (get_strength_recommendations self p)
      <-> sequential_chars_pattern p = true)
  /\ (repeating_chars_pattern p = true ->
      repeating_chars_pattern (p1 ++ p ++ p2) = true)
  /\ (sequential_chars_pattern p = true ->
      sequential_chars_pattern (p1 ++ p ++ p2) = true).
Proof.
  split; [| split; [| split]].
  - unfold get_strength_recommendations. rewrite !append_if_app.
    destruct (len p <? 12), (validate_uppercase (validator self) p),
      (validate_lowercase (validator self) p), (validate_digit (validator self) p),
      (validate_special_char (validator self) p), (repeating_chars_pattern p),
      (sequential_chars_pattern p); vm_compute;
      (split; [intros H; first [reflexivity | intuition discriminate]
              | intros H; first [discriminate H | tauto]]).
  - unfold get_strength_recommendations. rewrite !append_if_app.
    destruct (len p <? 12), (validate_uppercase (validator self) p),
      (validate_lowercase (validator self) p), (validate_digit (validator self) p),
      (validate_special_char (validator self) p), (repeating_chars_pattern p),
      (sequential_chars_pattern p); vm_compute;
      (split; [intros H; first [reflexivity | intuition discriminate]
              | intros H; first [discriminate H | tauto]]).
  - apply search_extend, match_repeating_app.
  - apply search_extend, match_sequential_app.
Qed.

Lemma X13_pattern_advisories_witness :
  repeating_chars_pattern (of_string "Tr0" ++ of_string "zzz" ++ of_string "!") = true
  /\ sequential_chars_pattern (of_string "Tr0" ++ of_string "xYz" ++ of_string "!")
     = true.
Proof.
  split.
  - destruct (X13_pattern_advisories checker (of_string "Tr0") (of_string "zzz")
                (of_string "!")) as (_ & _ & Hrep & _).
    apply Hrep. vm_compute. reflexivity.
  - destruct (X13_pattern_advisories checker (of_string "Tr0") (of_string "xYz")
                (of_string "!")) as (_ & _ & _ & Hseq).
    apply Hseq. vm_compute. reflexivity.
Defined.

(** X14: under the default configuration every failed validation rule
    comes with a recommendation: there are at least as many
    recommendations as validation errors, so an invalid password always
    gets advice, while a valid one may still get some. *)
Theorem X14_errors_have_recommendations (p : str) :
  (length (get_validation_errors (validator checker) p)
   <= length (get_strength_recommendations checker p))%nat
  /\ (is_valid (validator checker) p = false ->
      get_strength_recommendations checker p <> [])
  /\ (exists q, is_valid (validator checker) q = true
                /\ get_strength_recommendations checker q <> []).
Proof.
  assert (Hlen : (length (get_validation_errors (validator checker) p)
                  <= length (get_strength_recommendations checker p))%nat).
  { unfold get_strength_recommendations, get_validation_errors.
    rewrite !append_if_app, !append_unless_app, default_length_rule.
    destruct (Z.ltb_spec (len p) 8), (Z.ltb_spec (len p) 12); try lia;
      destruct (validate_uppercase (validator checker) p),
        (validate_lowercase (validator checker) p),
        (validate_digit (validator checker) p),
        (validate_special_char (validator checker) p),
        (repeating_chars_pattern p), (sequential_chars_pattern p);
      simpl; lia. }
  split; [exact Hlen |]. split.
  - unfold is_valid. intros Hinv Hnil. rewrite Hnil in Hlen. cbn [length] in Hlen.
    apply Z.eqb_neq in Hinv. lia.
  - exists (of_string "Passw0rd!"). split; [vm_compute; reflexivity |].
    vm_compute. discriminate.
Qed.

Lemma X14_errors_have_recommendations_witness :
  get_strength_recommendations checker (of_string "short") <> [].
Proof.
  apply (X14_errors_have_recommendations (of_string "short")).
  vm_compute. reflexivity.
Defined.

(** ** Exact values of the scores *)


(** X16: the overall score is 1.0 exactly for the valid passwords of
    more than 16 characters without a repeat; a sequence does not prevent
    it. *)
Theorem X16_perfect_score (p : str) :
  calculate_overall_score checker p = 1.0%float
  <-> 16 < len p
      /\ is_valid (validator checker) p = true
      /\ repeating_chars_pattern p = false.
Proof.
  rewrite is_valid_predicates, default_length_rule. unfold_overall.
  destruct (Z.ltb_spec (len p) 8), (Z.leb_spec (len p) 10), (Z.leb_spec (len p) 12),
    (Z.leb_spec (len p) 16); try lia;
    case_features checker p;
    match goal with
    | |- ?F = _ <-> _ => let v := eval vm_compute in F in change F with v
    end;
    (split;
     [ intros Hone;
       first [ split; [lia | split; reflexivity]
             | exfalso; apply (f_equal (fun x => (x <? 1.0)%float)) in Hone;
               vm_compute in Hone; discriminate Hone ]
     | intros (Hl & Hv & Hr);
       first [reflexivity | discriminate Hv | discriminate Hr | lia] ]).
Qed.

(** ** The special characters *)

Lemma special_class_ascii (c : char) : Re.special_class c = true -> 33 <= c <= 125.
Proof.
  unfold Re.special_class. intros H.
  apply existsb_exists in H as (x & Hin & Hx). apply Z.eqb_eq in Hx. subst x.
  vm_compute in Hin.
  repeat (destruct Hin as [<- | Hin]; [lia |]). destruct Hin.
Qed.

(** X17: [validate_special_char] holds exactly when the password
    contains one of the 29 characters of the pattern; these are ASCII
    punctuation characters, and the ASCII punctuation characters that do
    not count are the apostrophe, the backtick and the tilde. *)
Theorem X17_special_characters (self : PasswordValidator) (p : str) :
  (validate_special_char self p = true
   <-> exists c, In c p /\ In c Re.special_chars)
  /\ length Re.special_chars = 29%nat
  /\ NoDup Re.special_chars
  /\ (forall c, Re.special_class c = true -> 33 <= c <= 125 /\ alnum_class c = false)
  /\ (forall c, 33 <= c <= 126 -> alnum_class c = false ->
                (Re.special_class c = false <-> c = 39 \/ c = 96 \/ c = 126)).
Proof.
  split; [| split; [reflexivity | split; [| split]]].
  - unfold validate_special_char, special_char_pattern, Re.search_class,
      Re.special_class.
    rewrite existsb_exists. split.
    + intros (c & Hin & Hc). apply existsb_exists in Hc as (x & Hx & Heq).
      apply Z.eqb_eq in Heq. subst x. by exists c.
    + intros (c & Hin & Hc). exists c. split; [exact Hin |].
      apply existsb_exists. exists c. split; [exact Hc | apply Z.eqb_refl].
  - apply NoDup_ListNoDup. vm_compute.
    repeat (constructor; [intros Hin; repeat (destruct Hin as [Hin | Hin];
                                        [discriminate Hin |]); destruct Hin |]).
    constructor.
  - intros c Hc. split; [by apply special_class_ascii | by apply special_class_alone].
  - intros c Hrange.
    assert (In c (seqZ 33 94)) as Hin by (apply list_elem_of_In, elem_of_seqZ; lia).
    vm_compute in Hin.
    repeat (destruct Hin as [<- | Hin];
            [vm_compute; intros Ha; split; intros Hs;
             first [discriminate Ha | discriminate Hs | reflexivity | lia
                   | tauto] |]).
    destruct Hin.
Qed.

Lemma X17_special_characters_witness :
  (33 <= 64 <= 125 /\ alnum_class 64 = false)
  /\ (Re.special_class 39 = false <-> 39 = 39 \/ 39 = 96 \/ 39 = 126).
Proof.
  destruct (X17_special_characters (validator checker) [])
    as (_ & _ & _ & Hspecial & Hother).
  split.
  - apply Hspecial. vm_compute. reflexivity.
  - apply Hother; [lia | vm_compute; reflexivity].
Defined.
